(** * Get_GHGRP_data: the Envirofacts table fetcher

    A shallow embedding of [envirofacts_api/Get_GHGRP_data.py] (class
    [GHGRP_API]) and the properties of its pagination logic.

    The remote service is a [World]: what [requests.get] and
    [pd.read_csv] answer for a URL, given the requests made before.  The
    methods run in a small monad that threads the list of requests made so
    far and stops at the first raised exception. *)

From Stdlib Require Import ZArith List String Ascii Bool Lia DecimalString.
Import ListNotations.

Open Scope Z_scope.

(** ** Python values and exceptions *)

(** A value of a parsed CSV cell: an integer, a text, or the missing value
    (NaN).  Other floating-point cells are outside the model. *)
Inductive cell : Type :=
| CInt (z : Z)
| CStr (s : string)
| CNaN.

Definition row : Type := list cell.

(** [pd.DataFrame]: the column labels and the rows in order.  The row labels
    (the index) take part in no comparison of the program and are left out.
    A row shorter than the header reads as padded with NaN, as [read_csv]
    pads it. *)
Record DataFrame : Type := mkDataFrame {
  columns : list string;
  rows : list row
}.

(** The exceptions the program can end with. *)
Inductive exn : Type :=
| AssertionError (msg : string)   (* a failed [assert cond, msg] *)
| ValueError (msg : string)       (* [raise ValueError(msg)] *)
| IntValueError (v : cell)        (* the ValueError of [int(v)]; text not modelled *)
| IndexError                      (* [values[0]] of an array of size 0 *)
| ReadCsvError (e : string).      (* whatever [pd.read_csv] raises *)

Inductive result (A : Type) : Type :=
| Ok (a : A)
| Err (e : exn).
Arguments Ok {A} a.
Arguments Err {A} e.

(** The names the specification gives to the three failures of the core. *)
Definition UnreachableResourceError : exn :=
  AssertionError "URL does not exist.".
Definition UnrecognizedCountFormatError : exn :=
  ValueError "Count file format not recognized.".
Definition UnrecognizedYearColumnError : exn :=
  ValueError "Column name for reporting year not recognized.".

Definition cell_eq_dec (x y : cell) : {x = y} + {x <> y}.
Proof. decide equality; [apply Z.eq_dec | apply string_dec]. Defined.

Definition row_eq_dec : forall x y : row, {x = y} + {x <> y} :=
  list_eq_dec cell_eq_dec.

(** ** Strings *)

(** [str(n)] and the [{n}] of an f-string, for an integer. *)
Definition py_str (n : Z) : string := NilZero.string_of_int (Z.to_int n).

(** [c.lower()] on one character.  Only A-Z change; no character outside
    ASCII lowers to one of the letters of the names looked for below. *)
Definition lower_ascii (c : ascii) : ascii :=
  let n := nat_of_ascii c in
  if ((65 <=? n) && (n <=? 90))%nat then ascii_of_nat (n + 32) else c.

Fixpoint py_lower (s : string) : string :=
  match s with
  | EmptyString => EmptyString
  | String c s' => String (lower_ascii c) (py_lower s')
  end.

(** [x in xs] for a sequence of strings (also a pandas [Index]). *)
Definition py_in (x : string) (xs : list string) : bool :=
  existsb (String.eqb x) xs.

(** [q or ""] for an [Optional[str]]. *)
Definition or_empty (q : option string) : string :=
  match q with
  | Some s => s
  | None => EmptyString
  end.

(** Whitespace that [int()] strips: tab, LF, VT, FF, CR and space. *)
Definition is_space (c : ascii) : bool :=
  let n := nat_of_ascii c in
  (((9 <=? n) && (n <=? 13)) || (n =? 32))%nat.

Definition is_digit (c : ascii) : bool :=
  let n := nat_of_ascii c in
  ((48 <=? n) && (n <=? 57))%nat.

Definition digit_value (c : ascii) : Z := Z.of_nat (nat_of_ascii c - 48).

Fixpoint lstrip (l : list ascii) : list ascii :=
  match l with
  | c :: l' => if is_space c then lstrip l' else l
  | [] => []
  end.

Definition strip (l : list ascii) : list ascii :=
  rev (lstrip (rev (lstrip l))).

(** Decimal digits, with single underscores allowed between two digits.
    [after_digit] tells whether the character before was a digit. *)
Fixpoint parse_digits (acc : Z) (after_digit : bool) (l : list ascii)
  : option Z :=
  match l with
  | [] => if after_digit then Some acc else None
  | c :: l' =>
      if is_digit c then parse_digits (10 * acc + digit_value c) true l'
      else if (Ascii.eqb c "_" && after_digit)%bool
           then parse_digits acc false l'
           else None
  end.

(** [int(s)] for a text [s], base 10, on ASCII input: surrounding
    whitespace, an optional sign, then the digits. *)
Definition int_of_text (s : string) : option Z :=
  match strip (list_ascii_of_string s) with
  | "-"%char :: l => option_map Z.opp (parse_digits 0 false l)
  | "+"%char :: l => parse_digits 0 false l
  | l => parse_digits 0 false l
  end.

(** [int(v)] for a cell value. *)
Definition py_int (v : cell) : result Z :=
  match v with
  | CInt z => Ok z
  | CStr s => match int_of_text s with
              | Some z => Ok z
              | None => Err (IntValueError v)
              end
  | CNaN => Err (IntValueError v)
  end.

(** ** Data frames *)

(** [df.empty]: one of the two axes has length 0. *)
Definition empty (df : DataFrame) : bool :=
  match columns df, rows df with
  | [], _ => true
  | _, [] => true
  | _, _ => false
  end.

Fixpoint index_of (c : string) (cols : list string) : option nat :=
  match cols with
  | [] => None
  | c' :: cols' => if String.eqb c c' then Some O
                   else option_map S (index_of c cols')
  end.

(** The cell of a row under column [c] of a frame with header [cols]. *)
Definition cell_at (cols : list string) (c : string) (r : row) : cell :=
  match index_of c cols with
  | Some i => nth i r CNaN
  | None => CNaN
  end.

(** [df[c].values] *)
Definition column_values (df : DataFrame) (c : string) : list cell :=
  map (cell_at (columns df) c) (rows df).

(** [pd.concat(dfs)]: the rows of the frames in order, each laid out on the
    union of the headers (in order of first appearance), NaN where a frame
    lacks a column. *)
Definition union_columns (acc cols : list string) : list string :=
  fold_left (fun a c => if py_in c a then a else a ++ [c]) cols acc.

Definition reindex (cols : list string) (df : DataFrame) : list row :=
  map (fun r => map (fun c => cell_at (columns df) c r) cols) (rows df).

Definition pd_concat (dfs : list DataFrame) : DataFrame :=
  let cols := fold_left union_columns (map columns dfs) [] in
  mkDataFrame cols (flat_map (reindex cols) dfs).

(** [df.drop_duplicates()]: a row equal in every column to an earlier row
    is dropped (keep="first"). *)
Fixpoint drop_seen (seen : list row) (l : list row) : list row :=
  match l with
  | [] => []
  | r :: l' => if in_dec row_eq_dec r seen then drop_seen seen l'
               else r :: drop_seen (r :: seen) l'
  end.

Definition drop_duplicates (df : DataFrame) : DataFrame :=
  mkDataFrame (columns df) (drop_seen [] (rows df)).

(** ** numpy *)

(** [np.arange(start, stop, step, dtype=int)] for a step other than 0:
    [ceil((stop - start) / step)] values from [start], none when that is
    not positive.  The values are in [Z]; numpy holds them in 64 bits,
    which is the same as long as [stop] fits. *)
Definition np_arange (start stop step : Z) : list Z :=
  map (fun i => start + Z.of_nat i * step)
      (seq 0 (Z.to_nat (- ((- (stop - start)) / step)))).

(** [np.append(arr, v)] *)
Definition np_append (arr : list Z) (v : Z) : list Z := arr ++ [v].

(** ** The remote service and the monad of requests *)

Inductive request : Type :=
| HttpGet (url : string)     (* [requests.get(url)] *)
| ReadCsv (url : string).    (* the download of [pd.read_csv(url)] *)

(** What the service answers to a request, given the requests before it:
    the status code of a GET, and the table [pd.read_csv] parses from the
    body, or the text of the exception it raises. *)
Record World : Type := mkWorld {
  status_code : list request -> string -> Z;
  read_csv : list request -> string -> string + DataFrame
}.

(** A computation takes the requests made so far and gives a value or an
    exception, with the requests made by then. *)
Definition M (A : Type) : Type := list request -> result A * list request.

Definition ret {A} (a : A) : M A := fun l => (Ok a, l).

Definition raise {A} (e : exn) : M A := fun l => (Err e, l).

Definition bind {A B} (m : M A) (f : A -> M B) : M B :=
  fun l => match m l with
           | (Ok a, l') => f a l'
           | (Err e, l') => (Err e, l')
           end.

Definition lift {A} (r : result A) : M A := fun l => (r, l).

Declare Scope py_scope.
Delimit Scope py_scope with py.
Notation "x <- m ;; k" := (bind m (fun x => k))
  (at level 100, m at next level, right associativity) : py_scope.
Notation "m ;;; k" := (bind m (fun _ => k))
  (at level 100, right associativity) : py_scope.
Open Scope py_scope.

(** The loop [for x in xs: acc.append(f(x))]. *)
Fixpoint for_each {A B} (f : A -> M B) (xs : list A) : M (list B) :=
  match xs with
  | [] => ret []
  | x :: xs' => b <- f x ;; bs <- for_each f xs' ;; ret (b :: bs)
  end.

(** [values[0]] *)
Definition first_value {A} (l : list A) : M A :=
  match l with
  | v :: _ => ret v
  | [] => raise IndexError
  end.

Definition BASE_URL : string := "https://enviro.epa.gov/enviro/efservice/".

Section GHGRP_API.

Variable w : World.

Definition http_get (url : string) : M Z :=
  fun l => (Ok (status_code w l url), l ++ [HttpGet url]).

Definition pd_read_csv (url : string) : M DataFrame :=
  fun l => (match read_csv w l url with
            | inr df => Ok df
            | inl e => Err (ReadCsvError e)
            end, l ++ [ReadCsv url]).

(** [assert cond, msg], assertions being enabled. *)
Definition py_assert (cond : bool) (msg : string) : M unit :=
  if cond then ret tt else raise (AssertionError msg).

(** [read_path] (lines 45-49) *)
Definition read_path (path : string) : M DataFrame :=
  status <- http_get path ;;
  py_assert (status =? 200) "URL does not exist." ;;;
  pd_read_csv path.

(** [get_table_slice] (lines 51-82) *)
Definition get_table_slice (table : string) (start_row end_row : Z)
    (custom_query : option string) : M DataFrame :=
  let custom_query := or_empty custom_query in
  let path := (BASE_URL ++ "/" ++ table ++ "/" ++ custom_query ++ "/rows/"
               ++ py_str start_row ++ ":" ++ py_str end_row ++ "/csv")%string in
  read_path path.

(** [get_row_count] (lines 84-95) *)
Definition get_row_count (table : string) (custom_query : option string)
  : M Z :=
  let custom_query := or_empty custom_query in
  let path := (BASE_URL ++ "/" ++ table ++ "/" ++ custom_query
               ++ "/count/csv")%string in
  df <- read_path path ;;
  if py_in "TOTALQUERYRESULTS" (columns df) then
    v <- first_value (column_values df "TOTALQUERYRESULTS") ;;
    lift (py_int v)
  else if empty df then
    h <- first_value (columns df) ;;
    lift (py_int (CStr h))
  else
    raise (ValueError "Count file format not recognized.").

(** [get_reporting_year_query] (lines 97-111) *)
Definition get_reporting_year_query (table : string)
    (reporting_year : option Z) : M string :=
  match reporting_year with
  | None => ret ""%string
  | Some reporting_year =>
      let path := (BASE_URL ++ "/" ++ table ++ "/rows/0:1/csv")%string in
      df <- read_path path ;;
      if py_in "reporting_year" (map py_lower (columns df)) then
        ret ("reporting_year/" ++ py_str reporting_year)%string
      else if py_in "year" (map py_lower (columns df)) then
        ret ("year/" ++ py_str reporting_year)%string
      else
        raise (ValueError "Column name for reporting year not recognized.")
  end.

(** [rows or self.get_row_count(...)] (line 141): the limit when it is
    given and not 0, the counted rows otherwise. *)
Definition rows_or_count (rows : option Z) (count : M Z) : M Z :=
  match rows with
  | Some r => if r =? 0 then count else ret r
  | None => count
  end.

(** [row_range] (lines 144-147) *)
Definition row_range (max_row : Z) : list Z :=
  let row_range_without_max := np_arange 0 max_row 10000 in
  np_append row_range_without_max max_row.

(** [get_data] (lines 113-165).  [None] is the value the method returns
    when there is nothing to fetch. *)
Definition get_data (table : string) (reporting_year : option Z)
    (rows : option Z) : M (option DataFrame) :=
  reporting_year_query <- get_reporting_year_query table reporting_year ;;
  max_row <- rows_or_count rows
               (get_row_count table (Some reporting_year_query)) ;;
  let row_range := row_range max_row in
  if (1 <? List.length row_range)%nat then
    ghgrp_data <- for_each
      (fun n => get_table_slice table (nth n row_range 0)
                  (nth (n + 1) row_range 0) (Some reporting_year_query))
      (seq 0 (List.length row_range - 1)) ;;
    let ghgrp_data := pd_concat ghgrp_data in
    let ghgrp_data := drop_duplicates ghgrp_data in
    ret (Some ghgrp_data)
  else
    ret None.

End GHGRP_API.

(** ** Notions used by the statements *)

(** The boundary pairs the loop of [get_data] walks through. *)
Definition chunks (max_row : Z) : list (Z * Z) :=
  let rr := row_range max_row in
  map (fun n => (nth n rr 0, nth (n + 1) rr 0))
      (seq 0 (List.length rr - 1)).

(** The loop of [get_data] over given boundary pairs. *)
Definition fetch_chunks (w : World) (table query : string)
    (cs : list (Z * Z)) : M (list DataFrame) :=
  for_each (fun c => get_table_slice w table (fst c) (snd c) (Some query)) cs.

(** Steps 1 and 2 of [get_data]: the qualifier, then the total. *)
Definition resolve_total (w : World) (table : string)
    (reporting_year rows : option Z) : M (string * Z) :=
  q <- get_reporting_year_query w table reporting_year ;;
  total <- rows_or_count rows (get_row_count w table (Some q)) ;;
  ret (q, total).


(** The frame has a column whose lowered label is [name]. *)
Definition has_column_ci (name : string) (df : DataFrame) : Prop :=
  exists c, In c (columns df) /\ py_lower c = name.



(** [needle] occurs in [hay]. *)
Fixpoint occurs_in (needle hay : string) : bool :=
  orb (String.prefix needle hay)
      match hay with
      | EmptyString => false
      | String _ hay' => occurs_in needle hay'
      end.

(** The URL of the 1-row probe and of the count request. *)
Definition probe_url (table : string) : string :=
  (BASE_URL ++ "/" ++ table ++ "/rows/0:1/csv")%string.

Definition count_url (table : string) (q : option string) : string :=
  (BASE_URL ++ "/" ++ table ++ "/" ++ or_empty q ++ "/count/csv")%string.

(** ** Sample services *)

(** A service that answers every probe with 200, every count request with
    the response [count] and every other request with the frame [slice]. *)
Definition sample_service (count slice : DataFrame) : World :=
  mkWorld (fun _ _ => 200)
          (fun _ u => if occurs_in "/count/csv" u then inr count
                      else inr slice).


(** The two shapes of a count response. *)
Definition count_column (n : Z) : DataFrame :=
  mkDataFrame ["TOTALQUERYRESULTS"%string] [[CInt n]].

Definition count_header (n : string) : DataFrame :=
  mkDataFrame [n] [].

(** Slices with the year under one label, and under both. *)
Definition slice_rows : list row :=
  [[CInt 1; CInt 2020]; [CInt 2; CInt 2020]].

Definition slice_reporting_year : DataFrame :=
  mkDataFrame ["FACILITY_ID"; "Reporting_Year"]%string slice_rows.

Definition slice_both : DataFrame :=
  mkDataFrame ["YEAR"; "Reporting_Year"]%string slice_rows.

(** The URL a request goes to. *)
Definition request_url (r : request) : string :=
  match r with
  | HttpGet url => url
  | ReadCsv url => url
  end.

(** [l'] is [l] followed by requests that all satisfy [P]. *)
Definition adds (P : request -> Prop) (l l' : list request) : Prop :=
  exists added, l' = l ++ added /\ Forall P added.

(** The request goes to a URL under [BASE_URL/table/]. *)
Definition under_table (table : string) (r : request) : Prop :=
  String.prefix (BASE_URL ++ "/" ++ table ++ "/") (request_url r) = true.

(** ** Basic facts *)

Lemma py_in_In (x : string) (xs : list string) :
  py_in x xs = true <-> In x xs.
Proof.
  unfold py_in. rewrite existsb_exists. split.
  - intros [y [Hy Heq]]. apply String.eqb_eq in Heq. now subst.
  - intros H. exists x. split; [assumption | apply String.eqb_refl].
Qed.

Lemma py_in_lower_ci (name : string) (df : DataFrame) :
  py_in name (map py_lower (columns df)) = true <-> has_column_ci name df.
Proof.
  rewrite py_in_In, in_map_iff. unfold has_column_ci.
  split; intros [c [H1 H2]]; exists c; tauto.
Qed.


Lemma bind_ok {A B} (m : M A) (f : A -> M B) l a l' :
  m l = (Ok a, l') -> bind m f l = f a l'.
Proof. intros H. unfold bind. now rewrite H. Qed.


Section ReadPath.

Variable w : World.

(** [read_path] in closed form. *)
Lemma read_path_eq (path : string) (l : list request) :
  read_path w path l =
  if status_code w l path =? 200
  then (match read_csv w (l ++ [HttpGet path]) path with
        | inr df => Ok df
        | inl e => Err (ReadCsvError e)
        end, l ++ [HttpGet path; ReadCsv path])
  else (Err UnreachableResourceError, l ++ [HttpGet path]).
Proof.
  unfold read_path, bind, http_get, py_assert, pd_read_csv, ret, raise.
  destruct (status_code w l path =? 200); [| reflexivity].
  now rewrite <- app_assoc.
Qed.


End ReadPath.

(** ** The URL reader *)


(** ** URL construction *)


(** ** The row limit *)


(** ** The year qualifier *)

Section YearQuery.

Variable w : World.

Lemma year_query_after_probe (table : string) (y : Z) l df l' :
  read_path w (probe_url table) l = (Ok df, l') ->
  get_reporting_year_query w table (Some y) l =
  if py_in "reporting_year" (map py_lower (columns df))
  then (Ok ("reporting_year/" ++ py_str y)%string, l')
  else if py_in "year" (map py_lower (columns df))
       then (Ok ("year/" ++ py_str y)%string, l')
       else (Err UnrecognizedYearColumnError, l').
Proof.
  intros H. unfold get_reporting_year_query.
  rewrite (bind_ok _ _ _ _ _ H).
  destruct (py_in "reporting_year" _); [reflexivity |].
  destruct (py_in "year" _); reflexivity.
Qed.

End YearQuery.


(** C10: when the probed header has both a label that lowers to
    "reporting_year" and one that lowers to "year", the qualifier is
    [reporting_year/y]: the first test wins. *)
Theorem year_query_precedence (w : World) (table : string) (y : Z)
    (l l' : list request) (df : DataFrame)
    (Hprobe : read_path w (BASE_URL ++ "/" ++ table ++ "/rows/0:1/csv")%string l
              = (Ok df, l'))
    (Hry : has_column_ci "reporting_year" df)
    (Hy : has_column_ci "year" df) :
  get_reporting_year_query w table (Some y) l =
  (Ok ("reporting_year/" ++ py_str y)%string, l').
Proof.
  rewrite (year_query_after_probe w table y l df l' Hprobe).
  apply py_in_lower_ci in Hry. now rewrite Hry.
Qed.

(** ** The row counter *)

Section RowCount.

Variable w : World.

Lemma row_count_after_read (table : string) (q : option string) l df l' :
  read_path w (count_url table q) l = (Ok df, l') ->
  get_row_count w table q l =
  if py_in "TOTALQUERYRESULTS" (columns df)
  then match column_values df "TOTALQUERYRESULTS" with
       | v :: _ => (py_int v, l')
       | [] => (Err IndexError, l')
       end
  else if empty df
       then match columns df with
            | h :: _ => (py_int (CStr h), l')
            | [] => (Err IndexError, l')
            end
       else (Err UnrecognizedCountFormatError, l').
Proof.
  intros H. unfold get_row_count.
  rewrite (bind_ok _ _ _ _ _ H).
  destruct (py_in _ (columns df)).
  - destruct (column_values df _); reflexivity.
  - destruct (empty df); [| reflexivity].
    destruct (columns df); reflexivity.
Qed.

End RowCount.

(** C3, as stated, fails at this input.
    The response with the one column "count of total results" holding 42
    is answered with the ValueError "Count file format not recognized.",
    not with 42: the column the code looks for is "TOTALQUERYRESULTS". *)
Lemma row_count_other_column_name_rejected :
  let df := mkDataFrame ["count of total results"%string] [[CInt 42]] in
  let w := mkWorld (fun _ _ => 200) (fun _ _ => inr df) in
  fst (get_row_count w "T" None []) = Err UnrecognizedCountFormatError
  /\ fst (get_row_count w "T" None []) <> Ok 42.
Proof. split; [reflexivity | discriminate]. Qed.

(** C3 (as the code has it): once the count response has been read, the
    row counter returns [int] of the first value of the column
    "TOTALQUERYRESULTS" when the header has that column; without it, and
    with no data row, it returns [int] of the first column label; without
    it and with a data row, it raises the ValueError "Count file format
    not recognized.". *)
Theorem row_count_shapes (w : World) (table : string) (q : option string)
    (l l' : list request) (df : DataFrame)
    (Hread : read_path w (BASE_URL ++ "/" ++ table ++ "/" ++ or_empty q
                          ++ "/count/csv")%string l = (Ok df, l')) :
  (forall v vs, In "TOTALQUERYRESULTS"%string (columns df) ->
     column_values df "TOTALQUERYRESULTS" = v :: vs ->
     get_row_count w table q l = (py_int v, l'))
  /\ (forall h hs, ~ In "TOTALQUERYRESULTS"%string (columns df) ->
        rows df = [] -> columns df = h :: hs ->
        get_row_count w table q l = (py_int (CStr h), l'))
  /\ (forall h hs r rs, ~ In "TOTALQUERYRESULTS"%string (columns df) ->
        columns df = h :: hs -> rows df = r :: rs ->
        get_row_count w table q l = (Err UnrecognizedCountFormatError, l'))
  /\ py_int (CInt 42) = Ok 42
  /\ py_int (CStr "0") = Ok 0.
Proof.
  pose proof (row_count_after_read w table q l df l' Hread) as E.
  repeat split.
  - intros v vs Hin Hv. apply py_in_In in Hin. now rewrite Hin, Hv in E.
  - intros h hs Hn Hr Hc.
    destruct (py_in "TOTALQUERYRESULTS" (columns df)) eqn:Ein.
    { apply py_in_In in Ein. contradiction. }
    unfold empty in E. now rewrite Hc, Hr in E.
  - intros h hs r rs Hn Hc Hr.
    destruct (py_in "TOTALQUERYRESULTS" (columns df)) eqn:Ein.
    { apply py_in_In in Ein. contradiction. }
    unfold empty in E. now rewrite Hc, Hr in E.
Qed.

(** ** Chunk boundaries *)

Lemma ceil_div_bounds (m : Z) :
  0 <= m ->
  let c := - ((- m) / 10000) in
  0 <= c /\ 10000 * (c - 1) < m <= 10000 * c.
Proof.
  intros Hm c. subst c.
  pose proof (Z.div_mod (- m) 10000 ltac:(lia)) as Hd.
  pose proof (Z.mod_pos_bound (- m) 10000 ltac:(lia)) as Hb.
  lia.
Qed.

Lemma nth_multiples (k i : nat) (tl : list Z) :
  (i < k)%nat ->
  nth i (map (fun j => 0 + Z.of_nat j * 10000) (seq 0 k) ++ tl) 0
  = Z.of_nat i * 10000.
Proof.
  intros Hi.
  rewrite app_nth1 by (rewrite length_map, length_seq; exact Hi).
  rewrite (nth_indep _ 0 (0 + Z.of_nat 0 * 10000))
    by (rewrite length_map, length_seq; exact Hi).
  rewrite (map_nth (fun j => 0 + Z.of_nat j * 10000)).
  rewrite seq_nth by exact Hi. simpl (0 + i)%nat. lia.
Qed.

Lemma nth_after_multiples (k : nat) (m : Z) :
  nth k (map (fun j => 0 + Z.of_nat j * 10000) (seq 0 k) ++ [m]) 0 = m.
Proof.
  rewrite app_nth2 by (rewrite length_map, length_seq; lia).
  rewrite length_map, length_seq, Nat.sub_diag. reflexivity.
Qed.

Lemma row_range_closed_form (m : Z) :
  row_range m =
  map (fun j => 0 + Z.of_nat j * 10000)
      (seq 0 (Z.to_nat (- ((- m) / 10000)))) ++ [m].
Proof.
  unfold row_range, np_append, np_arange. now rewrite Z.sub_0_r.
Qed.

Lemma row_range_length (m : Z) :
  List.length (row_range m) = S (Z.to_nat (- ((- m) / 10000))).
Proof.
  rewrite row_range_closed_form, length_app, length_map, length_seq.
  simpl. lia.
Qed.

(** C1: for a total of at least 0 the boundaries start at 0 and end at the
    total; each step but the last is exactly 10000 and the last step is
    positive and at most 10000.  For 25000 they are 0, 10000, 20000, 25000
    and [get_data] is three slice fetches, one per step, then the merge. *)
Theorem row_range_boundaries (total : Z) (Htotal : 0 <= total) :
  let rr := row_range total in
  hd_error rr = Some 0
  /\ (exists init, rr = init ++ [total])
  /\ (forall i, (i + 2 < List.length rr)%nat ->
        nth (i + 1) rr 0 - nth i rr 0 = 10000)
  /\ (forall i, (i + 2 = List.length rr)%nat ->
        0 < nth (i + 1) rr 0 - nth i rr 0 <= 10000)
  /\ row_range 25000 = [0; 10000; 20000; 25000]
  /\ forall (w : World) (table : string) (l : list request),
       get_data w table None (Some 25000) l =
       (s1 <- get_table_slice w table 0 10000 (Some ""%string) ;;
        s2 <- get_table_slice w table 10000 20000 (Some ""%string) ;;
        s3 <- get_table_slice w table 20000 25000 (Some ""%string) ;;
        ret (Some (drop_duplicates (pd_concat [s1; s2; s3])))) l.
Proof.
  intros rr.
  destruct (ceil_div_bounds total Htotal) as [Hc0 Hc].
  pose proof (row_range_length total) as Hlen.
  pose proof (row_range_closed_form total) as Hrr.
  fold rr in Hlen, Hrr.
  set (k := Z.to_nat (- ((- total) / 10000))) in *.
  assert (Hk : Z.of_nat k = - ((- total) / 10000)) by (subst k; lia).
  repeat split.
  - rewrite Hrr. destruct k as [| k'].
    + simpl. f_equal. lia.
    + reflexivity.
  - eexists. exact Hrr.
  - intros i Hi. rewrite Hrr.
    rewrite !nth_multiples by lia. lia.
  - rewrite Hrr. replace (i + 1)%nat with k by lia.
    rewrite nth_after_multiples, nth_multiples by lia. lia.
  - rewrite Hrr. replace (i + 1)%nat with k by lia.
    rewrite nth_after_multiples, nth_multiples by lia. lia.
  - intros w table l. unfold get_data, bind, ret. simpl.
    unfold bind, ret.
    destruct (get_table_slice w table 0 10000 (Some ""%string) l)
      as [[s1 | e1] l1]; [| reflexivity].
    destruct (get_table_slice w table 10000 20000 (Some ""%string) l1)
      as [[s2 | e2] l2]; [| reflexivity].
    destruct (get_table_slice w table 20000 25000 (Some ""%string) l2)
      as [[s3 | e3] l3]; reflexivity.
Qed.

(** ** The orchestrator, step by step *)

Lemma for_each_map {A B C} (f : B -> M C) (g : A -> B) (xs : list A) :
  forall l, for_each (fun x => f (g x)) xs l = for_each f (map g xs) l.
Proof.
  induction xs as [| x xs IH]; intros l; [reflexivity |].
  simpl. unfold bind.
  destruct (f (g x) l) as [[b | e] l1]; [| reflexivity].
  now rewrite IH.
Qed.

(** [get_data] as its three stages: the qualifier and the total, the
    fetch loop over the boundary pairs, the merge. *)
Lemma get_data_stages (w : World) (table : string)
    (reporting_year rows : option Z) (l : list request) :
  get_data w table reporting_year rows l =
  match resolve_total w table reporting_year rows l with
  | (Ok (q, total), l2) =>
      if (1 <? List.length (row_range total))%nat
      then match fetch_chunks w table q (chunks total) l2 with
           | (Ok dfs, l3) => (Ok (Some (drop_duplicates (pd_concat dfs))), l3)
           | (Err e, l3) => (Err e, l3)
           end
      else (Ok None, l2)
  | (Err e, l2) => (Err e, l2)
  end.
Proof.
  unfold get_data, resolve_total, bind, ret.
  destruct (get_reporting_year_query w table reporting_year l)
    as [[q | e] l1]; [| reflexivity].
  destruct (rows_or_count rows (get_row_count w table (Some q)) l1)
    as [[total | e] l2]; [| reflexivity].
  destruct (1 <? List.length (row_range total))%nat; [| reflexivity].
  unfold fetch_chunks, chunks.
  rewrite <- (for_each_map
    (fun c => get_table_slice w table (fst c) (snd c) (Some q))
    (fun n => (nth n (row_range total) 0, nth (n + 1) (row_range total) 0))).
  reflexivity.
Qed.

Lemma ceil_div_any (m : Z) :
  let c := - ((- m) / 10000) in
  10000 * (c - 1) < m <= 10000 * c.
Proof.
  intros c. subst c.
  pose proof (Z.div_mod (- m) 10000 ltac:(lia)) as Hd.
  pose proof (Z.mod_pos_bound (- m) 10000 ltac:(lia)) as Hb.
  lia.
Qed.

Lemma row_range_single_nonpositive (total : Z) :
  total <= 0 -> (1 <? List.length (row_range total))%nat = false.
Proof.
  intros H. rewrite row_range_length. apply Nat.ltb_ge.
  pose proof (ceil_div_any total) as Hb. cbv zeta in Hb. lia.
Qed.

(** C2, as stated, fails at this input.
    With [rows=-5] and no year the total is -5, which is not zero, and
    [get_data] returns [None], not a table. *)
Lemma get_data_negative_total_returns_none :
  let w := sample_service (count_column 42) slice_reporting_year in
  resolve_total w "T" None (Some (-5)) [] = (Ok (""%string, -5), [])
  /\ -5 <> 0
  /\ get_data w "T" None (Some (-5)) [] = (Ok None, []).
Proof. split; [reflexivity | split; [discriminate | reflexivity]]. Qed.

(** C2 (as the code has it): once the qualifier and the total are
    determined, a total of 0 or below makes [get_data] return [None], the
    value that is not a table, with no request beyond those two steps; a
    total above 0 gives at least one boundary pair, and [get_data]
    returns the merged table of the fetched slices (or ends with the
    exception of the fetch that failed), never [None]. *)
Theorem get_data_none_iff_total_not_positive (w : World) (table : string)
    (reporting_year rows : option Z) (l l2 : list request)
    (q : string) (total : Z)
    (Hsteps : resolve_total w table reporting_year rows l
              = (Ok (q, total), l2)) :
  (total <= 0 ->
   get_data w table reporting_year rows l = (Ok None, l2))
  /\ (0 < total ->
      chunks total <> []
      /\ get_data w table reporting_year rows l =
         match fetch_chunks w table q (chunks total) l2 with
         | (Ok dfs, l3) => (Ok (Some (drop_duplicates (pd_concat dfs))), l3)
         | (Err e, l3) => (Err e, l3)
         end
      /\ fst (get_data w table reporting_year rows l) <> Ok None).
Proof.
  pose proof (get_data_stages w table reporting_year rows l) as E.
  rewrite Hsteps in E.
  split.
  - intros Hle.
    now rewrite (row_range_single_nonpositive total Hle) in E.
  - intros Hpos.
    assert (El : (1 <? List.length (row_range total))%nat = true).
    { rewrite row_range_length. apply Nat.ltb_lt.
      pose proof (ceil_div_any total) as Hb. cbv zeta in Hb. lia. }
    rewrite El in E.
    assert (Hch : chunks total <> []).
    { unfold chunks. apply Nat.ltb_lt in El.
      destruct (List.length (row_range total)) as [| [| n]]; try lia.
      simpl. discriminate. }
    repeat split; [exact Hch | exact E |].
    rewrite E.
    destruct (fetch_chunks w table q (chunks total) l2) as [[dfs | e] l3];
      simpl; discriminate.
Qed.

(** ** Concatenation and duplicate removal *)

Section DropDuplicates.

Lemma drop_seen_In (l : list row) :
  forall seen x, In x (drop_seen seen l) <-> In x l /\ ~ In x seen.
Proof.
  induction l as [| r l IH]; intros seen x; simpl.
  - tauto.
  - destruct (in_dec row_eq_dec r seen) as [Hin | Hout].
    + rewrite IH. split.
      * tauto.
      * intros [[-> | H] Hn]; [contradiction | tauto].
    + simpl. rewrite IH. simpl. split.
      * intros [-> | [H Hn]]; [tauto |]. split; [tauto |]. tauto.
      * intros [[-> | H] Hn]; [tauto |].
        destruct (row_eq_dec r x) as [-> | Hne]; [tauto |]. right. tauto.
Qed.

Lemma drop_seen_NoDup (l : list row) :
  forall seen, NoDup (drop_seen seen l).
Proof.
  induction l as [| r l IH]; intros seen; simpl.
  - constructor.
  - destruct (in_dec row_eq_dec r seen); [apply IH |].
    constructor; [| apply IH].
    rewrite drop_seen_In. simpl. tauto.
Qed.






End DropDuplicates.

Section Concat.








End Concat.

(** ** The merge *)


(** ** Failures *)




(** ** The statements at concrete inputs *)


Lemma row_range_boundaries_witness :
  0 <= 12000
  /\ hd_error (row_range 12000) = Some 0
  /\ exists init, row_range 12000 = init ++ [12000].
Proof.
  assert (H : 0 <= 12000) by lia.
  split; [exact H |].
  pose proof (row_range_boundaries 12000 H) as T. simpl in T.
  split; [exact (proj1 T) | exact (proj1 (proj2 T))].
Defined.

Lemma get_data_none_iff_total_not_positive_witness :
  let w := sample_service (count_header "0") slice_reporting_year in
  let l2 := snd (resolve_total w "T" (Some 2020) None []) in
  resolve_total w "T" (Some 2020) None []
    = (Ok ("reporting_year/2020"%string, 0), l2)
  /\ get_data w "T" (Some 2020) None [] = (Ok None, l2).
Proof.
  intros w l2.
  assert (Hsteps : resolve_total w "T" (Some 2020) None []
                   = (Ok ("reporting_year/2020"%string, 0), l2))
    by reflexivity.
  split; [exact Hsteps |].
  apply (proj1 (get_data_none_iff_total_not_positive w "T" (Some 2020) None
                  [] l2 "reporting_year/2020" 0 Hsteps)).
  lia.
Defined.

Lemma row_count_shapes_witness :
  let w := sample_service (count_column 42) slice_reporting_year in
  let url := (BASE_URL ++ "/T//count/csv")%string in
  read_path w url [] = (Ok (count_column 42), [HttpGet url; ReadCsv url])
  /\ get_row_count w "T" None [] = (Ok 42, [HttpGet url; ReadCsv url]).
Proof.
  intros w url.
  assert (Hread : read_path w url []
                  = (Ok (count_column 42), [HttpGet url; ReadCsv url]))
    by reflexivity.
  split; [exact Hread |].
  apply (proj1 (row_count_shapes w "T" None [] _ (count_column 42) Hread)
           (CInt 42) []).
  - simpl. left. reflexivity.
  - reflexivity.
Defined.


Lemma year_query_precedence_witness :
  let w := sample_service (count_column 42) slice_both in
  let url := (BASE_URL ++ "/T/rows/0:1/csv")%string in
  read_path w url [] = (Ok slice_both, [HttpGet url; ReadCsv url])
  /\ has_column_ci "reporting_year" slice_both
  /\ has_column_ci "year" slice_both
  /\ get_reporting_year_query w "T" (Some 2021) []
     = (Ok "reporting_year/2021"%string, [HttpGet url; ReadCsv url]).
Proof.
  intros w url.
  assert (Hprobe : read_path w url []
            = (Ok slice_both, [HttpGet url; ReadCsv url])) by reflexivity.
  assert (Hry : has_column_ci "reporting_year" slice_both).
  { exists "Reporting_Year"%string. split; [simpl; tauto | reflexivity]. }
  assert (Hy : has_column_ci "year" slice_both).
  { exists "YEAR"%string. split; [simpl; tauto | reflexivity]. }
  split; [exact Hprobe |]. split; [exact Hry |]. split; [exact Hy |].
  exact (year_query_precedence w "T" 2021 [] _ slice_both Hprobe Hry Hy).
Defined.



(** ** Further properties of the fetcher *)

(** X3: a table returned by [get_data] has no two equal rows. *)
Theorem get_data_rows_distinct (w : World) (table : string)
    (reporting_year limit : option Z) (l l' : list request) (df : DataFrame)
    (Hrun : get_data w table reporting_year limit l = (Ok (Some df), l')) :
  NoDup (rows df).
Proof.
  rewrite get_data_stages in Hrun.
  destruct (resolve_total w table reporting_year limit l)
    as [[[q total] | e] l2]; [| discriminate].
  destruct (1 <? List.length (row_range total))%nat; [| discriminate].
  destruct (fetch_chunks w table q (chunks total) l2) as [[dfs | e] l3];
    [| discriminate].
  inversion Hrun; subst. simpl. apply drop_seen_NoDup.
Qed.

Section Adds.

Variable P : request -> Prop.

Lemma adds_refl l : adds P l l.
Proof. exists []. split; [now rewrite app_nil_r | constructor]. Qed.

Lemma adds_trans l1 l2 l3 : adds P l1 l2 -> adds P l2 l3 -> adds P l1 l3.
Proof.
  intros [a [-> Ha]] [b [-> Hb]]. exists (a ++ b).
  split; [now rewrite app_assoc | now apply Forall_app].
Qed.

Lemma bind_adds {A B} (m : M A) (f : A -> M B) l :
  adds P l (snd (m l)) ->
  (forall a l1, adds P l1 (snd (f a l1))) ->
  adds P l (snd (bind m f l)).
Proof.
  intros Hm Hf. unfold bind.
  destruct (m l) as [[a | e] l1]; simpl in *.
  - eapply adds_trans; [exact Hm | apply Hf].
  - exact Hm.
Qed.

Lemma read_path_adds (w : World) (path : string) l :
  P (HttpGet path) -> P (ReadCsv path) ->
  adds P l (snd (read_path w path l)).
Proof.
  intros Hg Hr. rewrite read_path_eq.
  destruct (status_code w l path =? 200); simpl.
  - exists [HttpGet path; ReadCsv path]. split; [reflexivity |].
    repeat constructor; assumption.
  - exists [HttpGet path]. split; [reflexivity |].
    repeat constructor; assumption.
Qed.

Lemma for_each_adds {A B} (f : A -> M B) (xs : list A) :
  (forall x l, adds P l (snd (f x l))) ->
  forall l, adds P l (snd (for_each f xs l)).
Proof.
  intros Hf. induction xs as [| x xs IH]; intros l; simpl.
  - apply adds_refl.
  - apply bind_adds; [apply Hf |]. intros b l1.
    apply bind_adds; [apply IH |]. intros bs l2. apply adds_refl.
Qed.

End Adds.

Lemma prefix_app_same (a b c : string) :
  String.prefix (a ++ b) (a ++ c) = String.prefix b c.
Proof.
  induction a as [| x a IH]; simpl; [reflexivity |].
  destruct (ascii_dec x x) as [_ | N]; [exact IH | contradiction].
Qed.

Lemma under_table_url (table rest : string) (mk : string -> request) :
  (forall u, request_url (mk u) = u) ->
  under_table table (mk (BASE_URL ++ "/" ++ table ++ "/" ++ rest)%string).
Proof.
  intros Hmk. unfold under_table. rewrite Hmk.
  rewrite !prefix_app_same. simpl.
  destruct (ascii_dec "/" "/") as [_ | N]; [| contradiction].
  now destruct rest.
Qed.

Lemma read_path_under_table (w : World) (table rest : string) l :
  adds (under_table table) l
    (snd (read_path w (BASE_URL ++ "/" ++ table ++ "/" ++ rest)%string l)).
Proof.
  apply read_path_adds; apply under_table_url; reflexivity.
Qed.

(** X5: whatever happens, [get_data] only adds requests to the log it
    starts from, and every request it adds goes to a URL that begins with
    [BASE_URL/table/], the table being the one asked for. *)
Theorem get_data_requests_under_table (w : World) (table : string)
    (reporting_year limit : option Z) (l : list request) :
  exists added,
    snd (get_data w table reporting_year limit l) = l ++ added
    /\ Forall (fun r => String.prefix (BASE_URL ++ "/" ++ table ++ "/")
                                      (request_url r) = true) added.
Proof.
  change (adds (under_table table) l
            (snd (get_data w table reporting_year limit l))).
  unfold get_data.
  apply bind_adds.
  { unfold get_reporting_year_query.
    destruct reporting_year as [y |]; [| apply adds_refl].
    apply bind_adds; [apply (read_path_under_table w table "rows/0:1/csv") |].
    intros df l1.
    destruct (py_in "reporting_year" _); [apply adds_refl |].
    destruct (py_in "year" _); apply adds_refl. }
  intros q l1. apply bind_adds.
  { assert (Hc : forall l0, adds (under_table table) l0
                   (snd (get_row_count w table (Some q) l0))).
    { intros l0. unfold get_row_count. simpl or_empty.
      apply bind_adds; [apply read_path_under_table |].
      intros df l2.
      destruct (py_in _ (columns df)).
      - apply bind_adds.
        + unfold first_value. destruct (column_values df _); apply adds_refl.
        + intros v l3. apply adds_refl.
      - destruct (empty df); [| apply adds_refl].
        apply bind_adds.
        + unfold first_value. destruct (columns df); apply adds_refl.
        + intros v l3. apply adds_refl. }
    unfold rows_or_count. destruct limit as [r |]; [| apply Hc].
    destruct (r =? 0); [apply Hc | apply adds_refl]. }
  intros total l2.
  destruct (1 <? List.length (row_range total))%nat; [| apply adds_refl].
  apply bind_adds; [| intros dfs l3; apply adds_refl].
  apply for_each_adds. intros n l3.
  unfold get_table_slice. simpl or_empty. apply read_path_under_table.
Qed.

(** X6: the count-format ValueError is not the only way the row counter
    fails on a response it has read.  With the column "TOTALQUERYRESULTS"
    in the header and no data row it raises IndexError; with the column
    holding a missing value first it raises the ValueError of [int]; and
    without the column, with no data row and a first label that [int]
    rejects, it raises the ValueError of [int] as well. *)
Theorem row_count_edge_failures (w : World) (table : string)
    (q : option string) (l l' : list request) (df : DataFrame)
    (Hread : read_path w (BASE_URL ++ "/" ++ table ++ "/" ++ or_empty q
                          ++ "/count/csv")%string l = (Ok df, l')) :
  (In "TOTALQUERYRESULTS"%string (columns df) -> rows df = [] ->
   get_row_count w table q l = (Err IndexError, l'))
  /\ (forall vs, In "TOTALQUERYRESULTS"%string (columns df) ->
        column_values df "TOTALQUERYRESULTS" = CNaN :: vs ->
        get_row_count w table q l = (Err (IntValueError CNaN), l'))
  /\ (forall h hs, ~ In "TOTALQUERYRESULTS"%string (columns df) ->
        rows df = [] -> columns df = h :: hs -> int_of_text h = None ->
        get_row_count w table q l = (Err (IntValueError (CStr h)), l')).
Proof.
  pose proof (row_count_after_read w table q l df l' Hread) as E.
  split; [| split].
  - intros Hin Hr. apply py_in_In in Hin. rewrite Hin in E.
    unfold column_values in E. now rewrite Hr in E.
  - intros vs Hin Hv. apply py_in_In in Hin. now rewrite Hin, Hv in E.
  - intros h hs Hn Hr Hc Hi.
    destruct (py_in "TOTALQUERYRESULTS" (columns df)) eqn:Ein.
    { apply py_in_In in Ein. contradiction. }
    unfold empty in E. rewrite Hc, Hr in E. simpl in E.
    now rewrite Hi in E.
Qed.

(** ** The further statements at concrete inputs *)

Lemma get_data_rows_distinct_witness :
  let w := sample_service (count_column 12000) slice_reporting_year in
  let l' := snd (get_data w "T" (Some 2020) None []) in
  get_data w "T" (Some 2020) None [] = (Ok (Some slice_reporting_year), l')
  /\ NoDup (rows slice_reporting_year).
Proof.
  intros w l'.
  assert (Hrun : get_data w "T" (Some 2020) None []
                 = (Ok (Some slice_reporting_year), l')) by reflexivity.
  split; [exact Hrun |].
  exact (get_data_rows_distinct w "T" (Some 2020) None [] l'
           slice_reporting_year Hrun).
Defined.

Lemma row_count_edge_failures_witness :
  let df := mkDataFrame ["TOTALQUERYRESULTS"%string] [] in
  let w := sample_service df slice_reporting_year in
  let url := (BASE_URL ++ "/T//count/csv")%string in
  read_path w url [] = (Ok df, [HttpGet url; ReadCsv url])
  /\ get_row_count w "T" None [] = (Err IndexError, [HttpGet url; ReadCsv url]).
Proof.
  intros df w url.
  assert (Hread : read_path w url [] = (Ok df, [HttpGet url; ReadCsv url]))
    by reflexivity.
  split; [exact Hread |].
  apply (proj1 (row_count_edge_failures w "T" None [] _ df Hread)).
  - simpl. left. reflexivity.
  - reflexivity.
Defined.
